(** * RAGFlow retrieval client and its tool wrapper

    A shallow embedding of [src/services/ragflow.py] (class
    [RAGFlowService], method [retrieve]) and of
    [src/agent/tools/ragflow_retriever.py] ([query_knowledge_base]).

    Python values are an inductive type whose dictionaries are finite maps
    with string keys; exceptions are values tagged with a class of the
    Python / httpx hierarchy; the two coroutines run in a state-and-exception
    monad whose state records the emitted log events and the HTTP requests
    sent, so that "returns", "raises", "logs" and "posts" are all visible
    in the result of a run.  An [await] is sequential composition. *)

From Stdlib Require Import ZArith Ascii.
From Stdlib Require Import Floats.SpecFloat.
From stdpp Require Import base option list strings gmap.

Local Set Warnings "-register-all".
Local Open Scope string_scope.

(** ** Python values *)

Module Py.

(** The values [json.loads] can produce.  A Python [float] is kept as its
    IEEE-754 description, of which only the zero test is ever used. *)
Inductive value : Type :=
| PyNone
| PyBool (b : bool)
| PyInt (n : Z)
| PyFloat (f : spec_float)
| PyStr (s : string)
| PyList (l : list value)
| PyDict (d : gmap string value).

(** [bool(v)]: the truth value Python's [not v] negates. *)
Definition truthy (v : value) : bool :=
  match v with
  | PyNone => false
  | PyBool b => b
  | PyInt n => negb (Z.eqb n 0)
  | PyFloat (S754_zero _) => false
  | PyFloat _ => true
  | PyStr s => negb (String.eqb s "")
  | PyList l => match l with [] => false | _ :: _ => true end
  | PyDict d => negb (Nat.eqb (size d) 0)
  end.

(** [type(v).__name__]. *)
Definition type_name (v : value) : string :=
  match v with
  | PyNone => "NoneType"
  | PyBool _ => "bool"
  | PyInt _ => "int"
  | PyFloat _ => "float"
  | PyStr _ => "str"
  | PyList _ => "list"
  | PyDict _ => "dict"
  end.

Definition is_str (v : value) : bool :=
  match v with PyStr _ => true | _ => false end.

End Py.

(** ** Exceptions *)

(** The classes that can occur while [retrieve] runs, with the part of the
    Python and httpx hierarchies above them. *)
Inductive exc_class : Set :=
| BaseException | Exception
| KeyboardInterrupt | SystemExit | CancelledError
| ValueError | UnicodeError | UnicodeDecodeError | JSONDecodeError
| LookupError | KeyError | IndexError
| AttributeError | TypeError
| HTTPError | HTTPStatusError | RequestError
| TransportError | DecodingError | TooManyRedirects
| TimeoutException | ConnectTimeout | ReadTimeout | WriteTimeout | PoolTimeout
| NetworkError | ConnectError | ReadError | WriteError | CloseError
| ProtocolError | LocalProtocolError | RemoteProtocolError
| ProxyError | UnsupportedProtocol.

#[global] Instance exc_class_eq_dec : EqDecision exc_class.
Proof. solve_decision. Defined.

(** The direct base class ([cls.__base__]). *)
Definition base (c : exc_class) : option exc_class :=
  match c with
  | BaseException => None
  | Exception | KeyboardInterrupt | SystemExit | CancelledError => Some BaseException
  | ValueError | LookupError | AttributeError | TypeError | HTTPError => Some Exception
  | UnicodeError | JSONDecodeError => Some ValueError
  | UnicodeDecodeError => Some UnicodeError
  | KeyError | IndexError => Some LookupError
  | HTTPStatusError | RequestError => Some HTTPError
  | TransportError | DecodingError | TooManyRedirects => Some RequestError
  | TimeoutException | NetworkError | ProtocolError
  | ProxyError | UnsupportedProtocol => Some TransportError
  | ConnectTimeout | ReadTimeout | WriteTimeout | PoolTimeout => Some TimeoutException
  | ConnectError | ReadError | WriteError | CloseError => Some NetworkError
  | LocalProtocolError | RemoteProtocolError => Some ProtocolError
  end.

(** [cls.__mro__], cut at [fuel] steps above [c]. *)
Fixpoint mro (fuel : nat) (c : exc_class) : list exc_class :=
  c :: match fuel, base c with
       | S k, Some p => mro k p
       | _, _ => []
       end.

(** The hierarchy above is seven classes deep. *)
Definition issubclass (c d : exc_class) : bool := bool_decide (d ∈ mro 8 c).

Import Py.

(** ** The httpx data the client touches *)

(** What [client.post(url, headers=..., json=...)] sends, with the timeout
    (in seconds) of the client that sends it. *)
Record Request : Type := {
  req_url : string;
  req_headers : gmap string string;
  req_json : value;
  req_timeout : Z
}.

(** What [response.json()] does: decode the body, or raise
    [json.JSONDecodeError] with the given text. *)
Inductive json_body : Type :=
| Json (data : value)
| Malformed (message : string).

Record Response : Type := {
  status_code : Z;
  reason_phrase : string;
  body : json_body
}.

(** The ways a request can fail before any response exists. *)
Inductive post_failure : Set :=
| ConnectTimedOut | ReadTimedOut | WriteTimedOut | PoolTimedOut
| ConnectFailed          (* connection refused, DNS failure *)
| ReadFailed | WriteFailed | CloseFailed
| LocalProtocolViolation | RemoteProtocolViolation
| ProxyFailed | UnsupportedScheme
| DecodingFailed | RedirectLimit.

(** The httpx exception class raised for each of them. *)
Definition failure_class (f : post_failure) : exc_class :=
  match f with
  | ConnectTimedOut => ConnectTimeout
  | ReadTimedOut => ReadTimeout
  | WriteTimedOut => WriteTimeout
  | PoolTimedOut => PoolTimeout
  | ConnectFailed => ConnectError
  | ReadFailed => ReadError
  | WriteFailed => WriteError
  | CloseFailed => CloseError
  | LocalProtocolViolation => LocalProtocolError
  | RemoteProtocolViolation => RemoteProtocolError
  | ProxyFailed => ProxyError
  | UnsupportedScheme => UnsupportedProtocol
  | DecodingFailed => DecodingError
  | RedirectLimit => TooManyRedirects
  end.

(** One behaviour of the backend for one request. *)
Inductive post_result : Type :=
| Fails (f : post_failure) (message : string)
| Responds (r : Response).

(** An exception object: its class, [str(e)], and the [response] attribute
    that [httpx.HTTPStatusError] carries. *)
Record exc : Type := {
  exc_type : exc_class;
  exc_str : string;
  exc_response : option Response
}.

Definition isinstance (e : exc) (c : exc_class) : bool :=
  issubclass (exc_type e) c.

Definition mk_exc (c : exc_class) (message : string) : exc :=
  {| exc_type := c; exc_str := message; exc_response := None |}.

(** [200 <= status_code <= 299], httpx's [Response.is_success]. *)
Definition is_success (r : Response) : bool :=
  (200 <=? status_code r)%Z && (status_code r <=? 299)%Z.

(** ** The service object and the observable world *)

(** [src.config.settings.settings], of which three attributes are read. *)
Record Settings : Type := {
  RAGFLOW_BASE_URL : string;
  RAGFLOW_API_KEY : string;
  RAGFLOW_CHAT_ID : string
}.

Record RAGFlowService : Type := {
  base_url : string;
  api_key : string;
  chat_id : string;
  headers : gmap string string
}.

Inductive level : Set := INFO | WARNING | ERROR.

(** What a run leaves behind: structured log calls and requests sent. *)
Inductive event : Type :=
| Logged (lvl : level) (name : string) (fields : list (string * value))
| Posted (req : Request).

(** The module-level singleton [ragflow_service] and the events so far,
    oldest first. *)
Record world : Type := {
  ragflow_service : RAGFlowService;
  events : list event
}.

Definition is_post (ev : event) : bool :=
  match ev with Posted _ => true | Logged _ _ _ => false end.

(** Number of requests sent so far. *)
Definition posts (w : world) : nat := length (filter is_post (events w)).

Definition emit (ev : event) (w : world) : world :=
  {| ragflow_service := ragflow_service w; events := events w ++ [ev] |}.

(** ** Computations: state plus exceptions *)

Inductive result (A : Type) : Type :=
| Returned (a : A)
| Raised (e : exc).
Arguments Returned {A} a.
Arguments Raised {A} e.

Definition M (A : Type) : Type := world -> result A * world.

#[global] Instance M_ret : MRet M := λ A a w, (Returned a, w).

#[global] Instance M_bind : MBind M := λ A B k m w,
  match m w with
  | (Returned a, w') => k a w'
  | (Raised e, w') => (Raised e, w')
  end.

Definition raise {A : Type} (e : exc) : M A := λ w, (Raised e, w).

(** [self.<attr>] on the singleton. *)
Definition self {A : Type} (attr : RAGFlowService -> A) : M A :=
  λ w, (Returned (attr (ragflow_service w)), w).

(** [logger.<lvl>(name, **fields)]. *)
Definition log (lvl : level) (name : string) (fields : list (string * value)) : M unit :=
  λ w, (Returned (), emit (Logged lvl name fields) w).

(** One [except cls as e: handler] clause. *)
Definition clause (A : Type) : Type := exc_class * (exc -> M A).

(** The first clause whose class the exception is an instance of. *)
Fixpoint select {A : Type} (clauses : list (clause A)) (e : exc) : option (M A) :=
  match clauses with
  | [] => None
  | (c, h) :: rest => if isinstance e c then Some (h e) else select rest e
  end.

(** [try: body  except ...]: an exception no clause matches goes on to the
    caller. *)
Definition try_except {A : Type} (body : M A) (clauses : list (clause A)) : M A :=
  λ w, match body w with
       | (Returned a, w') => (Returned a, w')
       | (Raised e, w') =>
           match select clauses e with
           | Some h => h w'
           | None => (Raised e, w')
           end
       end.

(** ** Python operations used by the client *)

Definition char_in (c : Ascii.ascii) (chars : string) : bool :=
  bool_decide (c ∈ String.list_ascii_of_string chars).

(** [s.rstrip(chars)]: drop every trailing character that is in [chars]. *)
Fixpoint rstrip (s chars : string) : string :=
  match s with
  | EmptyString => EmptyString
  | String c s' =>
      match rstrip s' chars with
      | EmptyString => if char_in c chars then EmptyString else String c EmptyString
      | r => String c r
      end
  end.

(** [v.get(key, dflt)]: only a [dict] has the method. *)
Definition get (v : value) (key : string) (dflt : value) : M value :=
  match v with
  | PyDict d => mret (default dflt (d !! key))
  | _ => raise (mk_exc AttributeError
                  ("'" ++ type_name v ++ "' object has no attribute 'get'"))
  end.

(** [v[0]].  The keys of a decoded JSON object are strings, so the integer
    [0] is never among them.  The first character of a string is taken as
    its first byte; the client only ever calls [get] on it, which a [str]
    does not have. *)
Definition subscript0 (v : value) : M value :=
  match v with
  | PyList (x :: _) => mret x
  | PyList [] => raise (mk_exc IndexError "list index out of range")
  | PyStr (String c _) => mret (PyStr (String c EmptyString))
  | PyStr EmptyString => raise (mk_exc IndexError "string index out of range")
  | PyDict _ => raise (mk_exc KeyError "0")
  | _ => raise (mk_exc TypeError
                  ("'" ++ type_name v ++ "' object is not subscriptable"))
  end.

(** [e.response]. *)
Definition getattr_response (e : exc) : M Response :=
  match exc_response e with
  | Some r => mret r
  | None => raise (mk_exc AttributeError
                     "'HTTPStatusError' object has no attribute 'response'")
  end.

(** [RAGFlowService.__init__]. *)
Definition init (settings : Settings) : RAGFlowService :=
  let key := RAGFLOW_API_KEY settings in
  {| base_url := rstrip (RAGFLOW_BASE_URL settings) "/";
     api_key := key;
     chat_id := RAGFLOW_CHAT_ID settings;
     headers := {[ "Authorization" := "Bearer " ++ key;
                   "Content-Type" := "application/json" ]} |}.

Definition not_configured : string :=
  "RAGFlow is not configured. Please provide API key and Chat ID.".
Definition no_response : string := "No response from RAGFlow.".
Definition error_communicating : string := "Error communicating with RAGFlow: ".
Definition unexpected_error : string :=
  "An unexpected error occurred while querying RAGFlow: ".

Section Client.

(** The backend: its behaviour for the [n]-th request sent in a run. *)
Variable backend : nat -> Request -> post_result.

(** The text of the [HTTPStatusError] that httpx builds from the status
    line of a response that is not a success. *)
Variable status_message : Response -> string.

(** [await client.post(url, headers=hdrs, json=payload)] on a client made
    with [timeout=seconds]. *)
Definition post (url : string) (hdrs : gmap string string) (payload : value)
    (seconds : Z) : M Response :=
  λ w,
    let req := {| req_url := url; req_headers := hdrs;
                  req_json := payload; req_timeout := seconds |} in
    match backend (posts w) req with
    | Fails f message => (Raised (mk_exc (failure_class f) message), emit (Posted req) w)
    | Responds r => (Returned r, emit (Posted req) w)
    end.

(** The [HTTPStatusError] built for a response: it keeps the response. *)
Definition status_error (r : Response) : exc :=
  {| exc_type := HTTPStatusError;
     exc_str := status_message r;
     exc_response := Some r |}.

(** [response.raise_for_status()]. *)
Definition raise_for_status (r : Response) : M Response :=
  if is_success r then mret r else raise (status_error r).

(** [response.json()]. *)
Definition json (r : Response) : M value :=
  match body r with
  | Json data => mret data
  | Malformed message => raise (mk_exc JSONDecodeError message)
  end.

(** The request body of [retrieve]. *)
Definition payload (query : string) : value :=
  PyDict {[ "model" := PyStr "ragflow";
            "messages" := PyList [PyDict {[ "role" := PyStr "user";
                                            "content" := PyStr query ]}];
            "stream" := PyBool false ]}.

(** The part of the [try] block after [data = response.json()]:
    "Extract content from response". *)
Definition extract_content (query : string) (data : value) : M value :=
  choices ← get data "choices" (PyList []);
  if negb (truthy choices) then mret (PyStr no_response)
  else
    first ← subscript0 choices;
    message ← get first "message" (PyDict ∅);
    content ← get message "content" (PyStr "");
    log INFO "ragflow_retrieval_successful" [("query", PyStr query)];;
    mret content.

(** The [try] block of [retrieve]. *)
Definition retrieve_try (url : string) (query : string) : M value :=
  hdrs ← self headers;
  response ← post url hdrs (payload query) 30;
  _ ← raise_for_status response;
  data ← json response;
  extract_content query data.

(** The two [except] clauses of [retrieve], in source order. *)
Definition retrieve_except : list (clause value) :=
  [ (HTTPStatusError, λ e,
       response ← getattr_response e;
       log ERROR "ragflow_api_error"
         [("status_code", PyInt (status_code response)); ("error", PyStr (exc_str e))];;
       mret (PyStr (error_communicating ++ exc_str e)));
    (Exception, λ e,
       log ERROR "ragflow_unexpected_error" [("error", PyStr (exc_str e))];;
       mret (PyStr (unexpected_error ++ exc_str e))) ].

(** [RAGFlowService.retrieve]. *)
Definition retrieve (query : string) : M value :=
  key ← self api_key;
  chat ← self chat_id;
  if negb (truthy (PyStr key)) || negb (truthy (PyStr chat)) then
    log WARNING "ragflow_not_configured"
      [("api_key_set", PyBool (truthy (PyStr key)));
       ("chat_id_set", PyBool (truthy (PyStr chat)))];;
    mret (PyStr not_configured)
  else
    url_base ← self base_url;
    let url := url_base ++ "/chats_openai/" ++ chat ++ "/chat/completions" in
    try_except (retrieve_try url query) retrieve_except.

(** [query_knowledge_base], the body under the [@tool] decorator. *)
Definition query_knowledge_base (query : string) : M value :=
  log INFO "query_knowledge_base_tool_called" [("query", PyStr query)];;
  result ← retrieve query;
  mret result.

End Client.

(** * Vocabulary of the statements *)

(** The URL and the request [retrieve] builds for a service and a query. *)
Definition completions_url (svc : RAGFlowService) : string :=
  base_url svc ++ "/chats_openai/" ++ chat_id svc ++ "/chat/completions".

Definition request_of (svc : RAGFlowService) (query : string) : Request :=
  {| req_url := completions_url svc;
     req_headers := headers svc;
     req_json := payload query;
     req_timeout := 30 |}.

(** [self.api_key] and [self.chat_id] are both non-empty. *)
Definition configured (svc : RAGFlowService) : Prop :=
  api_key svc ≠ "" ∧ chat_id svc ≠ "".

(** [w] with further events after its own. *)
Definition extend (w : world) (new : list event) : world :=
  {| ragflow_service := ragflow_service w; events := events w ++ new |}.

(** A computation is oblivious when its result and the events it adds are
    the same in every world: it reads nothing from the world. *)
Definition oblivious {A : Type} (m : M A) : Prop :=
  ∃ (r : result A) (new : list event), ∀ w, m w = (r, extend w new).

(** Either an [HTTPStatusError] with its response, or another
    [Exception]: never something the two clauses let through. *)
Definition caught (e : exc) : Prop :=
  (exc_type e = HTTPStatusError ∧ is_Some (exc_response e))
  ∨ (issubclass (exc_type e) Exception = true ∧ exc_type e ≠ HTTPStatusError).

(** ** Example worlds and mock backends *)

(** A configured service, as [__init__] builds it from settings whose base
    URL ends in a slash, and an unconfigured one (no API key). *)
Definition example_settings : Settings :=
  {| RAGFLOW_BASE_URL := "http://localhost:9380/api/v1/";
     RAGFLOW_API_KEY := "ragflow-key";
     RAGFLOW_CHAT_ID := "chat-1" |}.

Definition example_world : world :=
  {| ragflow_service := init example_settings; events := [] |}.

Definition unconfigured_world : world :=
  {| ragflow_service :=
       init {| RAGFLOW_BASE_URL := "http://localhost:9380/api/v1/";
               RAGFLOW_API_KEY := "";
               RAGFLOW_CHAT_ID := "chat-1" |};
     events := [] |}.

(** A mock backend with one fixed behaviour. *)
Definition mock (behaviour : post_result) : nat -> Request -> post_result :=
  λ _ _, behaviour.

Definition responds (status : Z) (reason : string) (b : json_body) : post_result :=
  Responds {| status_code := status; reason_phrase := reason; body := b |}.

(** A stand-in for the text httpx puts in an [HTTPStatusError]. *)
Definition example_status_message (r : Response) : string :=
  "HTTP error '" ++ reason_phrase r ++ "'".

Definition capital_query : string := "What is the capital of France?".

(** [{"choices":[{"message":{"content": v}}]}] *)
Definition one_choice (v : value) : value :=
  PyDict {[ "choices" :=
              PyList [PyDict {[ "message" := PyDict {[ "content" := v ]} ]}] ]}.

(** * Properties *)

(** ** The class hierarchy *)

(** The clause [except Exception] does not catch a cancellation or a
    keyboard interrupt, so "never raises" is a property of what the [try]
    block can raise, not of the handler alone. *)
Lemma Exception_excludes :
  issubclass CancelledError Exception = false
  ∧ issubclass KeyboardInterrupt Exception = false
  ∧ issubclass SystemExit Exception = false.
Proof. by vm_compute. Qed.

(** Every failure of a request is an [Exception] and is not an
    [HTTPStatusError]. *)
Lemma failure_class_Exception (f : post_failure) :
  issubclass (failure_class f) Exception = true
  ∧ issubclass (failure_class f) HTTPStatusError = false.
Proof. by destruct f; vm_compute. Qed.

(** Only [HTTPStatusError] itself is an instance of [HTTPStatusError]. *)
Lemma issubclass_HTTPStatusError (c : exc_class) :
  issubclass c HTTPStatusError = true ↔ c = HTTPStatusError.
Proof. split; [by destruct c; vm_compute | by intros ->]. Qed.

(** ** Worlds *)

Lemma posts_emit_Logged (w : world) lvl name fields :
  posts (emit (Logged lvl name fields) w) = posts w.
Proof.
  unfold posts, emit; simpl.
  by rewrite filter_app, length_app, Nat.add_0_r.
Qed.

Lemma posts_emit_Posted (w : world) (req : Request) :
  posts (emit (Posted req) w) = S (posts w).
Proof.
  unfold posts, emit; simpl.
  rewrite filter_app, length_app; simpl. lia.
Qed.

Lemma truthy_PyStr (s : string) : truthy (PyStr s) = bool_decide (s ≠ "").
Proof.
  simpl. destruct (String.eqb_spec s "") as [-> | Hne].
  - by rewrite bool_decide_eq_false_2; [| intros H'; apply H'].
  - by rewrite bool_decide_eq_true_2.
Qed.

(** ** Computations that only append events *)

Lemma extend_nil (w : world) : extend w [] = w.
Proof. destruct w; unfold extend; simpl. by rewrite app_nil_r. Qed.

Lemma extend_extend (w : world) (new1 new2 : list event) :
  extend (extend w new1) new2 = extend w (new1 ++ new2).
Proof. unfold extend; simpl. by rewrite app_assoc. Qed.

Lemma emit_emit (w : world) (ev1 ev2 : event) :
  emit ev2 (emit ev1 w) = extend w [ev1; ev2].
Proof. unfold emit, extend; simpl. by rewrite <- app_assoc. Qed.

Lemma extend_emit (w : world) (ev : event) (new : list event) :
  extend (emit ev w) new = extend w (ev :: new).
Proof. apply (extend_extend w [ev] new). Qed.

Lemma posts_extend (w : world) (new : list event) :
  posts (extend w new) = (posts w + length (filter is_post new))%nat.
Proof. unfold posts, extend; simpl. by rewrite filter_app, length_app. Qed.

Lemma oblivious_mret {A : Type} (a : A) : oblivious (mret a).
Proof. exists (Returned a), []. intros w. by rewrite extend_nil. Qed.

Lemma oblivious_raise {A : Type} (e : exc) : oblivious (@raise A e).
Proof. exists (Raised e), []. intros w. by rewrite extend_nil. Qed.

Lemma oblivious_log lvl name fields : oblivious (log lvl name fields).
Proof. by exists (Returned ()), [Logged lvl name fields]. Qed.

Lemma oblivious_bind {A B : Type} (m : M A) (k : A → M B) :
  oblivious m → (∀ a, oblivious (k a)) → oblivious (m ≫= k).
Proof.
  intros (r & new & Hm) Hk. destruct r as [a | e].
  - destruct (Hk a) as (r' & new' & Hka).
    exists r', (new ++ new')%list. intros w.
    unfold mbind, M_bind. by rewrite Hm, Hka, extend_extend.
  - exists (Raised e), new. intros w.
    unfold mbind, M_bind. by rewrite Hm.
Qed.

Lemma oblivious_get (v : value) (key : string) (dflt : value) :
  oblivious (get v key dflt).
Proof. destruct v; apply oblivious_mret || apply oblivious_raise. Qed.

Lemma oblivious_subscript0 (v : value) : oblivious (subscript0 v).
Proof.
  destruct v as [| | | | [|] | [|] |]; apply oblivious_mret || apply oblivious_raise.
Qed.

Lemma oblivious_getattr_response (e : exc) : oblivious (getattr_response e).
Proof.
  unfold getattr_response.
  destruct (exc_response e); apply oblivious_mret || apply oblivious_raise.
Qed.

Lemma oblivious_if {A : Type} (b : bool) (m1 m2 : M A) :
  oblivious m1 → oblivious m2 → oblivious (if b then m1 else m2).
Proof. by destruct b. Qed.

Create HintDb oblivious.
#[local] Hint Resolve oblivious_mret oblivious_raise oblivious_log
  oblivious_get oblivious_subscript0 oblivious_getattr_response
  oblivious_if : oblivious.
#[local] Hint Extern 2 (oblivious (_ ≫= _)) =>
  apply oblivious_bind; [| intros ?] : oblivious.

Lemma oblivious_extract_content (query : string) (data : value) :
  oblivious (extract_content query data).
Proof. unfold extract_content. auto 10 with oblivious. Qed.

(** A handled exception: each [except] clause is oblivious. *)
Lemma oblivious_select (e : exc) (h : M value) :
  select retrieve_except e = Some h → oblivious h.
Proof.
  unfold retrieve_except; simpl.
  repeat case_match; intros; simplify_eq; auto 10 with oblivious.
Qed.

(** ** The [try] statement *)

Lemma try_except_Returned {A : Type} (body : M A) (clauses : list (clause A))
    (w w' : world) (a : A) :
  body w = (Returned a, w') → try_except body clauses w = (Returned a, w').
Proof. intros Hbody. unfold try_except. by rewrite Hbody. Qed.

(** The first clause takes an [HTTPStatusError], which carries its
    response. *)
Lemma try_except_HTTPStatusError (body : M value) (w w' : world) (e : exc)
    (r : Response) :
  body w = (Raised e, w') →
  exc_type e = HTTPStatusError →
  exc_response e = Some r →
  try_except body retrieve_except w =
    (Returned (PyStr (error_communicating ++ exc_str e)),
     emit (Logged ERROR "ragflow_api_error"
             [("status_code", PyInt (status_code r));
              ("error", PyStr (exc_str e))]) w').
Proof.
  intros Hbody Htype Hresp. unfold try_except. rewrite Hbody.
  unfold retrieve_except, select, isinstance. rewrite Htype.
  replace (issubclass HTTPStatusError HTTPStatusError) with true by by vm_compute.
  unfold getattr_response, mbind, M_bind. by rewrite Hresp.
Qed.

(** The second clause takes every other [Exception]. *)
Lemma try_except_Exception (body : M value) (w w' : world) (e : exc) :
  body w = (Raised e, w') →
  issubclass (exc_type e) Exception = true →
  exc_type e ≠ HTTPStatusError →
  try_except body retrieve_except w =
    (Returned (PyStr (unexpected_error ++ exc_str e)),
     emit (Logged ERROR "ragflow_unexpected_error"
             [("error", PyStr (exc_str e))]) w').
Proof.
  intros Hbody Hexc Hne. unfold try_except. rewrite Hbody.
  unfold retrieve_except, select, isinstance. rewrite Hexc.
  destruct (issubclass (exc_type e) HTTPStatusError) eqn:Hsub; [| done].
  by apply issubclass_HTTPStatusError in Hsub.
Qed.

(** ** Extracting the content *)

(** Whatever shape the decoded body has, the extraction raises nothing but
    an [AttributeError], a [TypeError], a [KeyError] or an [IndexError],
    and it raises before it logs. *)
Lemma extract_content_Raised (query : string) (data : value) (w w' : world)
    (e : exc) :
  extract_content query data w = (Raised e, w') →
  issubclass (exc_type e) Exception = true
  ∧ exc_type e ≠ HTTPStatusError
  ∧ w' = w.
Proof.
  unfold extract_content, get, subscript0, log, raise, mbind, M_bind, mret, M_ret.
  intros Hrun.
  repeat (case_match; simplify_eq/=); by vm_compute.
Qed.

Lemma extract_content_no_choices (query : string) (d : gmap string value)
    (w : world) :
  d !! "choices" = None ∨ d !! "choices" = Some (PyList []) →
  extract_content query (PyDict d) w = (Returned (PyStr no_response), w).
Proof.
  intros Hchoices. unfold extract_content, get, mbind, M_bind, mret, M_ret.
  by destruct Hchoices as [-> | ->].
Qed.

(** With a first choice that is an object, the result is whatever the two
    nested [get]s find, defaults included. *)
Lemma extract_content_first (query : string) (d first : gmap string value)
    (rest : list value) (m : gmap string value) (w : world) :
  d !! "choices" = Some (PyList (PyDict first :: rest)) →
  default (PyDict ∅) (first !! "message") = PyDict m →
  extract_content query (PyDict d) w =
    (Returned (default (PyStr "") (m !! "content")),
     emit (Logged INFO "ragflow_retrieval_successful" [("query", PyStr query)]) w).
Proof.
  intros Hchoices Hmessage.
  unfold extract_content, get, subscript0, log, mbind, M_bind, mret, M_ret.
  rewrite Hchoices; simpl. by rewrite Hmessage.
Qed.

(** A decoded body that is not an object has no [get]. *)
Lemma extract_content_not_object (query : string) (data : value) (w : world) :
  (∀ d : gmap string value, data ≠ PyDict d) →
  extract_content query data w =
    (Raised (mk_exc AttributeError
               ("'" ++ type_name data ++ "' object has no attribute 'get'")), w).
Proof.
  intros Hshape. unfold extract_content, get, raise, mbind, M_bind.
  destruct data; try done. by destruct (Hshape d).
Qed.

(** Nor has a first choice that is not an object. *)
Lemma extract_content_first_not_object (query : string) (d : gmap string value)
    (x : value) (rest : list value) (w : world) :
  d !! "choices" = Some (PyList (x :: rest)) →
  (∀ first : gmap string value, x ≠ PyDict first) →
  extract_content query (PyDict d) w =
    (Raised (mk_exc AttributeError
               ("'" ++ type_name x ++ "' object has no attribute 'get'")), w).
Proof.
  intros Hchoices Hshape.
  unfold extract_content, get, subscript0, raise, mbind, M_bind, mret, M_ret.
  rewrite Hchoices; simpl.
  destruct x; try done. by destruct (Hshape d0).
Qed.

(** ** Status codes *)

Lemma is_success_true (r : Response) :
  (200 ≤ status_code r ≤ 299)%Z → is_success r = true.
Proof. unfold is_success. lia. Qed.

Lemma is_success_false (r : Response) :
  ¬ (200 ≤ status_code r ≤ 299)%Z → is_success r = false.
Proof. unfold is_success. lia. Qed.

(** ** Running the client *)

Section Run.

Variable backend : nat -> Request -> post_result.
Variable status_message : Response -> string.

(** The guard clause: one warning, then the fixed string. *)
Lemma retrieve_guard (query : string) (w : world) :
  api_key (ragflow_service w) = "" ∨ chat_id (ragflow_service w) = "" →
  retrieve backend status_message query w =
    (Returned (PyStr not_configured),
     emit (Logged WARNING "ragflow_not_configured"
             [("api_key_set", PyBool (truthy (PyStr (api_key (ragflow_service w)))));
              ("chat_id_set", PyBool (truthy (PyStr (chat_id (ragflow_service w)))))]) w).
Proof.
  intros Hempty. unfold retrieve, self, log, mbind, M_bind, mret, M_ret.
  destruct Hempty as [-> | ->]; simpl; [done |].
  by rewrite orb_true_r.
Qed.

(** Past the guard, [retrieve] is its [try] statement. *)
Lemma retrieve_past_guard (query : string) (w : world) :
  configured (ragflow_service w) →
  retrieve backend status_message query w =
    try_except (retrieve_try backend status_message (completions_url (ragflow_service w)) query)
      retrieve_except w.
Proof.
  intros [Hkey Hchat]. unfold retrieve, self, mbind, M_bind.
  rewrite !truthy_PyStr, !bool_decide_eq_true_2 by done. done.
Qed.

(** The [try] block up to [response.json()], by the backend's behaviour. *)
Lemma retrieve_try_unfold (url query : string) (w : world) :
  let req := {| req_url := url; req_headers := headers (ragflow_service w);
                req_json := payload query; req_timeout := 30 |} in
  retrieve_try backend status_message url query w =
    match backend (posts w) req with
    | Fails f message =>
        (Raised (mk_exc (failure_class f) message), emit (Posted req) w)
    | Responds r =>
        if is_success r then
          match body r with
          | Json data => extract_content query data (emit (Posted req) w)
          | Malformed message =>
              (Raised (mk_exc JSONDecodeError message), emit (Posted req) w)
          end
        else (Raised (status_error status_message r), emit (Posted req) w)
    end.
Proof.
  intros req. unfold retrieve_try, self, post, raise_for_status, json,
    mbind, M_bind, mret, M_ret, raise. fold req.
  destruct (backend (posts w) req) as [f message | r]; [done |].
  destruct (is_success r); [| done].
  by destruct (body r).
Qed.

(** The outcome of [retrieve] for each behaviour of the backend. *)

Lemma retrieve_Fails (query : string) (w : world) (f : post_failure)
    (message : string) :
  let req := request_of (ragflow_service w) query in
  configured (ragflow_service w) →
  backend (posts w) req = Fails f message →
  retrieve backend status_message query w =
    (Returned (PyStr (unexpected_error ++ message)),
     extend w [Posted req;
               Logged ERROR "ragflow_unexpected_error" [("error", PyStr message)]]).
Proof.
  intros req Hconf Hback. rewrite retrieve_past_guard by done.
  destruct (failure_class_Exception f) as [Hexc Hnot].
  erewrite (try_except_Exception _ _ _ (mk_exc (failure_class f) message));
    [| | exact Hexc |].
  - by rewrite emit_emit.
  - rewrite retrieve_try_unfold.
    fold (request_of (ragflow_service w) query). fold req. by rewrite Hback.
  - simpl. intros Heq. by rewrite Heq in Hnot.
Qed.

Lemma retrieve_not_success (query : string) (w : world) (r : Response) :
  let req := request_of (ragflow_service w) query in
  configured (ragflow_service w) →
  backend (posts w) req = Responds r →
  is_success r = false →
  retrieve backend status_message query w =
    (Returned (PyStr (error_communicating ++ status_message r)),
     extend w [Posted req;
               Logged ERROR "ragflow_api_error"
                 [("status_code", PyInt (status_code r));
                  ("error", PyStr (status_message r))]]).
Proof.
  intros req Hconf Hback Hstatus. rewrite retrieve_past_guard by done.
  erewrite (try_except_HTTPStatusError _ _ _ (status_error status_message r) r); [| | done | done].
  - by rewrite emit_emit.
  - rewrite retrieve_try_unfold.
    fold (request_of (ragflow_service w) query). fold req.
    by rewrite Hback, Hstatus.
Qed.

Lemma retrieve_Malformed (query : string) (w : world) (r : Response)
    (message : string) :
  let req := request_of (ragflow_service w) query in
  configured (ragflow_service w) →
  backend (posts w) req = Responds r →
  is_success r = true →
  body r = Malformed message →
  retrieve backend status_message query w =
    (Returned (PyStr (unexpected_error ++ message)),
     extend w [Posted req;
               Logged ERROR "ragflow_unexpected_error" [("error", PyStr message)]]).
Proof.
  intros req Hconf Hback Hstatus Hbody. rewrite retrieve_past_guard by done.
  erewrite (try_except_Exception _ _ _ (mk_exc JSONDecodeError message));
    [| | by vm_compute | done].
  - by rewrite emit_emit.
  - rewrite retrieve_try_unfold.
    fold (request_of (ragflow_service w) query). fold req.
    by rewrite Hback, Hstatus, Hbody.
Qed.

(** A decoded body goes to the extraction, inside the [try]. *)
Lemma retrieve_Json (query : string) (w : world) (r : Response) (data : value) :
  let req := request_of (ragflow_service w) query in
  configured (ragflow_service w) →
  backend (posts w) req = Responds r →
  is_success r = true →
  body r = Json data →
  retrieve backend status_message query w =
    try_except (extract_content query data) retrieve_except (emit (Posted req) w).
Proof.
  intros req Hconf Hback Hstatus Hbody. rewrite retrieve_past_guard by done.
  unfold try_except. rewrite retrieve_try_unfold.
  fold (request_of (ragflow_service w) query). fold req.
  by rewrite Hback, Hstatus, Hbody.
Qed.

(** ** What the [try] block can raise *)

Lemma retrieve_try_Raised (url query : string) (w w' : world) (e : exc) :
  retrieve_try backend status_message url query w = (Raised e, w') → caught e.
Proof.
  rewrite retrieve_try_unfold. intros Hrun.
  repeat (case_match; simplify_eq/=).
  - right. destruct (failure_class_Exception f) as [Hexc Hnot].
    split; [done |]. simpl. intros Heq. by rewrite Heq in Hnot.
  - apply extract_content_Raised in Hrun as (Hexc & Hne & _). by right.
  - right. by vm_compute.
  - left. by split; [| eexists].
Qed.

(** A caught exception becomes one of the two error strings. *)
Lemma try_except_caught (body : M value) (w w' : world) (e : exc) :
  body w = (Raised e, w') →
  caught e →
  ∃ (prefix : string) (w'' : world),
    try_except body retrieve_except w = (Returned (PyStr (prefix ++ exc_str e)), w'')
    ∧ (prefix = error_communicating ∨ prefix = unexpected_error).
Proof.
  intros Hbody [[Htype [r Hresp]] | [Hexc Hne]].
  - eexists _, _. split; [by eapply try_except_HTTPStatusError | by left].
  - eexists _, _. split; [by eapply try_except_Exception | by right].
Qed.

Lemma configured_dec (svc : RAGFlowService) :
  configured svc ∨ (api_key svc = "" ∨ chat_id svc = "").
Proof.
  unfold configured.
  destruct (decide (api_key svc = "")); [by right; left |].
  destruct (decide (chat_id svc = "")); [by right; right | by left].
Qed.

(** Every run of [retrieve] returns. *)
Lemma retrieve_Returned (query : string) (w : world) :
  ∃ (v : value) (w' : world),
    retrieve backend status_message query w = (Returned v, w').
Proof.
  destruct (configured_dec (ragflow_service w)) as [Hconf | Hempty].
  - rewrite retrieve_past_guard by done.
    destruct (retrieve_try backend status_message
                (completions_url (ragflow_service w)) query w) as [[v | e] w'] eqn:Htry.
    + eexists _, _. by eapply try_except_Returned.
    + destruct (try_except_caught _ _ _ _ Htry) as (prefix & w'' & Hrun & _);
        [by eapply retrieve_try_Raised |].
      by eexists _, _.
  - rewrite retrieve_guard by done. by eexists _, _.
Qed.

(** ** Dependence on the world *)

(** [retrieve] reads the service object and the backend's next behaviour,
    and nothing else: two worlds that agree on these get the same result
    and the same new events. *)
Lemma retrieve_frame (query : string) (w1 w2 : world) :
  ragflow_service w1 = ragflow_service w2 →
  backend (posts w1) (request_of (ragflow_service w1) query)
    = backend (posts w2) (request_of (ragflow_service w1) query) →
  ∃ (r : result value) (new : list event),
    retrieve backend status_message query w1 = (r, extend w1 new)
    ∧ retrieve backend status_message query w2 = (r, extend w2 new).
Proof.
  intros Hsvc Hback.
  destruct (configured_dec (ragflow_service w1)) as [Hconf | Hempty].
  - destruct (backend (posts w1) (request_of (ragflow_service w1) query))
      as [f message | r] eqn:Hb1.
    { eexists _, _. split; [by eapply retrieve_Fails |].
      rewrite Hsvc in *. by eapply retrieve_Fails. }
    destruct (is_success r) eqn:Hstatus; cycle 1.
    { eexists _, _. split; [by eapply retrieve_not_success |].
      rewrite Hsvc in *. by eapply retrieve_not_success. }
    destruct (body r) as [data | message] eqn:Hbody; cycle 1.
    { eexists _, _. split; [by eapply retrieve_Malformed |].
      rewrite Hsvc in *. by eapply retrieve_Malformed. }
    assert (oblivious (try_except (extract_content query data) retrieve_except))
      as (res & new & Hall).
    { destruct (oblivious_extract_content query data) as ([v | e] & new & Hex).
      - exists (Returned v), new. intros w. by apply try_except_Returned.
      - destruct (select retrieve_except e) as [h |] eqn:Hsel.
        + destruct (oblivious_select e h Hsel) as (res & new' & Hh).
          exists res, (new ++ new')%list. intros w.
          unfold try_except. by rewrite Hex, Hsel, Hh, extend_extend.
        + exists (Raised e), new. intros w.
          unfold try_except. by rewrite Hex, Hsel. }
    exists res, (Posted (request_of (ragflow_service w1) query) :: new).
    split.
    + erewrite retrieve_Json by done. rewrite Hall.
      by rewrite extend_emit.
    + erewrite retrieve_Json; [| by rewrite <- Hsvc | by rewrite <- Hsvc, <- Hback | done..].
      rewrite Hall, <- Hsvc. by rewrite extend_emit.
  - eexists _, _. split; [by apply retrieve_guard |].
    rewrite retrieve_guard by by rewrite <- Hsvc. by rewrite Hsvc.
Qed.

(** A 2xx response whose first choice is an object: the result is what
    the two nested [get]s find, and the success is logged. *)
Lemma retrieve_first_object (query : string) (w : world) (r : Response)
    (d first m : gmap string value) (rest : list value) :
  let req := request_of (ragflow_service w) query in
  configured (ragflow_service w) →
  backend (posts w) req = Responds r →
  is_success r = true →
  body r = Json (PyDict d) →
  d !! "choices" = Some (PyList (PyDict first :: rest)) →
  default (PyDict ∅) (first !! "message") = PyDict m →
  retrieve backend status_message query w =
    (Returned (default (PyStr "") (m !! "content")),
     extend w [Posted req;
               Logged INFO "ragflow_retrieval_successful" [("query", PyStr query)]]).
Proof.
  intros req Hconf Hback Hstatus Hbody Hchoices Hmessage.
  erewrite retrieve_Json by done.
  erewrite try_except_Returned; [| by eapply extract_content_first].
  by rewrite emit_emit.
Qed.

(** Outside that shape the extraction raises inside the [try], and the
    second clause answers: a 2xx body that is not an object, or a first
    choice that is not an object, gives the "unexpected error" string. *)
Lemma retrieve_body_not_object (query : string) (w : world) (r : Response)
    (data : value) :
  configured (ragflow_service w) →
  backend (posts w) (request_of (ragflow_service w) query) = Responds r →
  is_success r = true →
  body r = Json data →
  (∀ d : gmap string value, data ≠ PyDict d) →
  (retrieve backend status_message query w).1 =
    Returned (PyStr (unexpected_error ++
                     "'" ++ type_name data ++ "' object has no attribute 'get'")).
Proof.
  intros Hconf Hback Hstatus Hbody Hshape.
  erewrite retrieve_Json by done.
  by erewrite try_except_Exception;
    [| by apply extract_content_not_object | by vm_compute | done].
Qed.

Lemma retrieve_first_not_object (query : string) (w : world) (r : Response)
    (d : gmap string value) (x : value) (rest : list value) :
  configured (ragflow_service w) →
  backend (posts w) (request_of (ragflow_service w) query) = Responds r →
  is_success r = true →
  body r = Json (PyDict d) →
  d !! "choices" = Some (PyList (x :: rest)) →
  (∀ first : gmap string value, x ≠ PyDict first) →
  (retrieve backend status_message query w).1 =
    Returned (PyStr (unexpected_error ++
                     "'" ++ type_name x ++ "' object has no attribute 'get'")).
Proof.
  intros Hconf Hback Hstatus Hbody Hchoices Hshape.
  erewrite retrieve_Json by done.
  by erewrite try_except_Exception;
    [| by eapply extract_content_first_not_object | by vm_compute | done].
Qed.

(** An [HTTPStatusError] in the [try] block comes from a response whose
    status is not a success, and from nowhere else. *)
Lemma retrieve_try_HTTPStatusError (url query : string) (w w' : world) (e : exc) :
  retrieve_try backend status_message url query w = (Raised e, w') →
  exc_type e = HTTPStatusError →
  ∃ (req : Request) (r : Response),
    backend (posts w) req = Responds r ∧ is_success r = false.
Proof.
  rewrite retrieve_try_unfold. intros Hrun Htype.
  repeat (case_match; simplify_eq/=).
  - destruct (failure_class_Exception f) as [_ Hnot].
    rewrite Htype in Hnot. by vm_compute in Hnot.
  - by apply extract_content_Raised in Hrun as (_ & Hne & _).
  - by eexists _, _.
Qed.

(** ** The guard clause *)

(** C1. For every query, the empty one included, and every backend: when
    the API key is empty or the chat identifier is empty, [retrieve]
    returns exactly the fixed "not configured" string; the one event it
    adds is a warning, so no request is sent. *)
Theorem retrieve_not_configured (query : string) (w : world) :
  api_key (ragflow_service w) = "" ∨ chat_id (ragflow_service w) = "" →
  ∃ (fields : list (string * value)) (w' : world),
    retrieve backend status_message query w =
      (Returned (PyStr "RAGFlow is not configured. Please provide API key and Chat ID."),
       w')
    ∧ events w' = (events w ++ [Logged WARNING "ragflow_not_configured" fields])%list
    ∧ posts w' = posts w.
Proof.
  intros Hempty. eexists _, _. split; [by apply retrieve_guard |].
  split; [done |]. apply posts_emit_Logged.
Qed.

(** ** No exception reaches the caller *)

(** C2. For every query, every world and every behaviour of the backend,
    [retrieve] returns a value and raises nothing; on each failure path
    the value is a string: the fixed one when the guard fires, and one of
    the two error prefixes followed by [str(e)] when the [try] block
    raised [e]. *)
Theorem retrieve_never_raises (query : string) (w : world) :
  ∃ (v : value) (w' : world),
    retrieve backend status_message query w = (Returned v, w')
    ∧ (api_key (ragflow_service w) = "" ∨ chat_id (ragflow_service w) = "" →
       v = PyStr not_configured)
    ∧ (∀ (e : exc) (w1 : world),
         configured (ragflow_service w) →
         retrieve_try backend status_message
           (completions_url (ragflow_service w)) query w = (Raised e, w1) →
         v = PyStr (error_communicating ++ exc_str e)
         ∨ v = PyStr (unexpected_error ++ exc_str e)).
Proof.
  destruct (retrieve_Returned query w) as (v & w' & Hrun).
  exists v, w'. split; [done |]. split.
  - intros Hempty. rewrite retrieve_guard in Hrun by done. by simplify_eq.
  - intros e w1 Hconf Htry.
    rewrite retrieve_past_guard in Hrun by done.
    destruct (try_except_caught _ _ _ _ Htry) as (prefix & w'' & Hexc & Hprefix);
      [by eapply retrieve_try_Raised |].
    rewrite Hexc in Hrun. simplify_eq.
    by destruct Hprefix as [-> | ->]; [left | right].
Qed.

(** ** The success path *)

(** C3. When the backend answers 2xx with a JSON object whose [choices]
    list is non-empty and whose first element has [message.content] equal
    to a string [c], [retrieve] returns exactly [c], untouched. *)
Theorem retrieve_returns_content (query : string) (w : world) (r : Response)
    (d first m : gmap string value) (rest : list value) (c : string) :
  configured (ragflow_service w) →
  backend (posts w) (request_of (ragflow_service w) query) = Responds r →
  (200 ≤ status_code r ≤ 299)%Z →
  body r = Json (PyDict d) →
  d !! "choices" = Some (PyList (PyDict first :: rest)) →
  first !! "message" = Some (PyDict m) →
  m !! "content" = Some (PyStr c) →
  (retrieve backend status_message query w).1 = Returned (PyStr c).
Proof.
  intros Hconf Hback Hstatus Hbody Hchoices Hmessage Hcontent.
  rewrite (retrieve_first_object query w r d first m rest);
    [by rewrite Hcontent | done | done | by apply is_success_true
    | done | done | by rewrite Hmessage].
Qed.

(** C4. When the backend answers 2xx with a JSON object in which
    [choices] is absent or is the empty list, [retrieve] returns exactly
    the fixed "no response" string. *)
Theorem retrieve_no_choices (query : string) (w : world) (r : Response)
    (d : gmap string value) :
  configured (ragflow_service w) →
  backend (posts w) (request_of (ragflow_service w) query) = Responds r →
  (200 ≤ status_code r ≤ 299)%Z →
  body r = Json (PyDict d) →
  d !! "choices" = None ∨ d !! "choices" = Some (PyList []) →
  (retrieve backend status_message query w).1 =
    Returned (PyStr "No response from RAGFlow.").
Proof.
  intros Hconf Hback Hstatus Hbody Hchoices.
  erewrite retrieve_Json; [| done | done | by apply is_success_true | done].
  erewrite try_except_Returned; [| by apply extract_content_no_choices]. done.
Qed.

(** C7. For a 2xx response whose [choices] list is non-empty, a missing
    nested field defaults to the empty string: when the first choice is an
    object without a ["message"] key, or its message is an object without
    a ["content"] key, [retrieve] returns [""]. *)
Theorem retrieve_missing_fields (query : string) (w : world) (r : Response)
    (d first : gmap string value) (rest : list value) :
  configured (ragflow_service w) →
  backend (posts w) (request_of (ragflow_service w) query) = Responds r →
  (200 ≤ status_code r ≤ 299)%Z →
  body r = Json (PyDict d) →
  d !! "choices" = Some (PyList (PyDict first :: rest)) →
  first !! "message" = None
  ∨ (∃ m : gmap string value,
       first !! "message" = Some (PyDict m) ∧ m !! "content" = None) →
  (retrieve backend status_message query w).1 = Returned (PyStr "").
Proof.
  intros Hconf Hback Hstatus Hbody Hchoices [Hmessage | (m & Hmessage & Hcontent)].
  - rewrite (retrieve_first_object query w r d first ∅ rest);
      [done | done | done | by apply is_success_true
      | done | done | by rewrite Hmessage].
  - rewrite (retrieve_first_object query w r d first m rest);
      [by rewrite Hcontent | done | done | by apply is_success_true
      | done | done | by rewrite Hmessage].
Qed.

(** C10. The value at [choices[0].message.content] is returned as it is,
    whatever its type: no check and no conversion to a string.  With
    ["content": null] the result is [None], not a string. *)
Theorem retrieve_content_unchecked (query : string) (w : world) (r : Response)
    (d first m : gmap string value) (rest : list value) (v : value) :
  configured (ragflow_service w) →
  backend (posts w) (request_of (ragflow_service w) query) = Responds r →
  (200 ≤ status_code r ≤ 299)%Z →
  body r = Json (PyDict d) →
  d !! "choices" = Some (PyList (PyDict first :: rest)) →
  first !! "message" = Some (PyDict m) →
  m !! "content" = Some v →
  (retrieve backend status_message query w).1 = Returned v.
Proof.
  intros Hconf Hback Hstatus Hbody Hchoices Hmessage Hcontent.
  rewrite (retrieve_first_object query w r d first m rest);
    [by rewrite Hcontent | done | done | by apply is_success_true
    | done | done | by rewrite Hmessage].
Qed.

(** ** The error paths *)

(** C5. When the backend answers with a status outside 200..299,
    [retrieve] returns "Error communicating with RAGFlow: " followed by
    the text of the [HTTPStatusError], after logging the numeric status
    code; it does not raise. *)
Theorem retrieve_status_error (query : string) (w : world) (r : Response) :
  let req := request_of (ragflow_service w) query in
  configured (ragflow_service w) →
  backend (posts w) req = Responds r →
  ¬ (200 ≤ status_code r ≤ 299)%Z →
  retrieve backend status_message query w =
    (Returned (PyStr ("Error communicating with RAGFlow: " ++ status_message r)),
     extend w [Posted req;
               Logged ERROR "ragflow_api_error"
                 [("status_code", PyInt (status_code r));
                  ("error", PyStr (status_message r))]]).
Proof.
  intros req Hconf Hback Hstatus.
  by apply retrieve_not_success; [| | apply is_success_false].
Qed.

(** C6. On any failure that is not a non-2xx status (a request that
    fails: timeout, refused connection, DNS failure, network error; a body
    that is not JSON; any other exception of the [try] block that is not
    an [HTTPStatusError]), [retrieve] returns "An unexpected error
    occurred while querying RAGFlow: " followed by [str(e)], and does not
    raise. *)
Theorem retrieve_unexpected_error (query : string) (w : world) :
  let req := request_of (ragflow_service w) query in
  let unexpected (details : string) : result value :=
    Returned (PyStr ("An unexpected error occurred while querying RAGFlow: "
                     ++ details)) in
  configured (ragflow_service w) →
  (∀ (f : post_failure) (message : string),
     backend (posts w) req = Fails f message →
     (retrieve backend status_message query w).1 = unexpected message)
  ∧ (∀ (r : Response) (message : string),
       backend (posts w) req = Responds r →
       (200 ≤ status_code r ≤ 299)%Z →
       body r = Malformed message →
       (retrieve backend status_message query w).1 = unexpected message)
  ∧ (∀ (e : exc) (w' : world),
       retrieve_try backend status_message
         (completions_url (ragflow_service w)) query w = (Raised e, w') →
       exc_type e ≠ HTTPStatusError →
       (retrieve backend status_message query w).1 = unexpected (exc_str e)).
Proof.
  intros req unexpected Hconf. split; [| split].
  - intros f message Hback. by erewrite retrieve_Fails.
  - intros r message Hback Hstatus Hbody.
    by erewrite retrieve_Malformed; [| | | apply is_success_true |].
  - intros e w' Htry Hne.
    rewrite retrieve_past_guard by done.
    destruct (retrieve_try_Raised _ _ _ _ _ Htry) as [[Htype _] | [Hexc _]]; [done |].
    by erewrite try_except_Exception.
Qed.

(** ** The tool wrapper *)

(** C8. For every query, [query_knowledge_base] returns the very result
    [retrieve] returns for that query in the same world, and adds the same
    events after one log event of its own. *)
Theorem query_knowledge_base_passthrough (query : string) (w : world) :
  ∃ (r : result value) (new : list event),
    retrieve backend status_message query w = (r, extend w new)
    ∧ query_knowledge_base backend status_message query w =
        (r, extend w (Logged INFO "query_knowledge_base_tool_called"
                        [("query", PyStr query)] :: new)).
Proof.
  destruct (retrieve_frame query w
              (emit (Logged INFO "query_knowledge_base_tool_called"
                       [("query", PyStr query)]) w))
    as (r & new & Hw & Hcalled); [done | by rewrite posts_emit_Logged |].
  exists r, new. split; [done |].
  unfold query_knowledge_base, log, mbind, M_bind, mret, M_ret.
  rewrite Hcalled, extend_emit. by destruct r.
Qed.

(** ** Repeated calls *)

(** C9. Against a deterministic backend (its behaviour depends on the
    request only), two successive calls of [retrieve] with the same query
    return the same value, and the service object is the same before,
    between and after them. *)
Theorem retrieve_twice (query : string) (w : world) :
  (∀ (i j : nat) (req : Request), backend i req = backend j req) →
  ∃ (v : value) (w1 w2 : world),
    retrieve backend status_message query w = (Returned v, w1)
    ∧ retrieve backend status_message query w1 = (Returned v, w2)
    ∧ ragflow_service w1 = ragflow_service w
    ∧ ragflow_service w2 = ragflow_service w.
Proof.
  intros Hdet.
  destruct (retrieve_Returned query w) as (v & w1 & Hfirst).
  destruct (retrieve_frame query w w) as (r & new & Hw & _); [done | done |].
  rewrite Hw in Hfirst. simplify_eq.
  destruct (retrieve_frame query w (extend w new)) as (r' & new' & Hw' & Hsecond);
    [done | by apply Hdet |].
  rewrite Hw in Hw'. simplify_eq.
  by eexists v, _, _.
Qed.

End Run.

(** * Further properties *)

(** ** Construction of the service *)

Lemma char_in_slash (c : Ascii.ascii) : char_in c "/" = true ↔ c = "/"%char.
Proof.
  unfold char_in; simpl. rewrite bool_decide_eq_true.
  split; [by intros ->%list_elem_of_singleton | intros ->; apply list_elem_of_singleton; done].
Qed.

(** [rstrip] removes a suffix made of characters of [chars] only. *)
Lemma rstrip_suffix (s chars : string) :
  ∃ suffix : string,
    s = rstrip s chars ++ suffix
    ∧ Forall (λ c, char_in c chars = true) (String.list_ascii_of_string suffix).
Proof.
  induction s as [| c s (suffix & Hs & Hall)]; simpl.
  - by exists "".
  - destruct (rstrip s chars) as [| c' r] eqn:Hr; simpl in *.
    + destruct (char_in c chars) eqn:Hc.
      * exists (String c s). split; [done |]. simpl. rewrite Hs. by constructor.
      * exists suffix. by rewrite Hs.
    + exists suffix. by rewrite Hs at 1.
Qed.

(** What [rstrip] returns does not end with a character of [chars]. *)
Lemma rstrip_last (s chars prefix : string) (c : Ascii.ascii) :
  rstrip s chars = prefix ++ String c "" → char_in c chars = false.
Proof.
  revert prefix. induction s as [| a s IH]; intros prefix; simpl.
  - by destruct prefix.
  - destruct (rstrip s chars) as [| b r] eqn:Hr.
    + destruct (char_in a chars) eqn:Ha.
      * by destruct prefix.
      * destruct prefix as [| a2 prefix]; intros Heq.
        -- change (String a "" = String c "") in Heq. by simplify_eq.
        -- change (String a "" = String a2 (prefix ++ String c "")) in Heq.
           simplify_eq. by destruct prefix.
    + destruct prefix as [| a2 prefix]; intros Heq.
      * change (String a (String b r) = String c "") in Heq. simplify_eq.
      * change (String a (String b r) = String a2 (prefix ++ String c "")) in Heq.
        simplify_eq. by eapply IH.
Qed.

(** A string made of characters of [chars] is stripped to nothing. *)
Lemma rstrip_all (t chars : string) :
  Forall (λ c, char_in c chars = true) (String.list_ascii_of_string t) →
  rstrip t chars = "".
Proof.
  induction t as [| c t IH]; simpl; [done |].
  intros [Hc Ht]%Forall_cons. by rewrite IH, Hc.
Qed.

(** Appending such a string changes nothing. *)
Lemma rstrip_app (s t chars : string) :
  Forall (λ c, char_in c chars = true) (String.list_ascii_of_string t) →
  rstrip (s ++ t) chars = rstrip s chars.
Proof.
  intros Ht. induction s as [| c s IH]; simpl.
  - by apply rstrip_all.
  - by rewrite IH.
Qed.

(** X1. [__init__] keeps the API key and the chat identifier as they are
    and stores the base URL without its trailing slashes: the configured
    URL is the stored one followed by slashes only, and the stored one does
    not end with a slash. *)
Theorem init_base_url (settings : Settings) :
  api_key (init settings) = RAGFLOW_API_KEY settings
  ∧ chat_id (init settings) = RAGFLOW_CHAT_ID settings
  ∧ (∃ slashes : string,
       RAGFLOW_BASE_URL settings = base_url (init settings) ++ slashes
       ∧ Forall (λ c, c = "/"%char) (String.list_ascii_of_string slashes))
  ∧ (∀ (prefix : string) (c : Ascii.ascii),
       base_url (init settings) = prefix ++ String c "" → c ≠ "/"%char).
Proof.
  split; [done |]. split; [done |]. split.
  - destruct (rstrip_suffix (RAGFLOW_BASE_URL settings) "/") as (slashes & Hs & Hall).
    exists slashes. split; [done |].
    eapply Forall_impl; [exact Hall |]. intros c. apply char_in_slash.
  - intros prefix c Hlast ->. apply rstrip_last in Hlast.
    by rewrite (proj2 (char_in_slash _)) in Hlast.
Qed.

(** X2. Trailing slashes on the configured base URL make no difference:
    the service built is the same, so the request URL is the same. *)
Theorem init_trailing_slashes (settings : Settings) (slashes : string) :
  Forall (λ c, c = "/"%char) (String.list_ascii_of_string slashes) →
  init {| RAGFLOW_BASE_URL := RAGFLOW_BASE_URL settings ++ slashes;
          RAGFLOW_API_KEY := RAGFLOW_API_KEY settings;
          RAGFLOW_CHAT_ID := RAGFLOW_CHAT_ID settings |}
  = init settings.
Proof.
  intros Hall. unfold init; simpl. f_equal.
  apply rstrip_app. eapply Forall_impl; [exact Hall |].
  intros c. apply char_in_slash.
Qed.

(** ** One call, one request *)

(** The extraction either returns, having logged nothing or the one
    success event, or raises, having logged nothing. *)
Lemma extract_content_cases (query : string) (data : value) (w : world) :
  (∃ (v : value) (logs : list event),
     extract_content query data w = (Returned v, extend w logs)
     ∧ (logs = []
        ∨ logs = [Logged INFO "ragflow_retrieval_successful"
                    [("query", PyStr query)]]))
  ∨ (∃ e : exc,
       extract_content query data w = (Raised e, w)
       ∧ issubclass (exc_type e) Exception = true
       ∧ exc_type e ≠ HTTPStatusError).
Proof.
  destruct (extract_content query data w) as [[v | e] w'] eqn:Hrun.
  - left. revert Hrun.
    unfold extract_content, get, subscript0, log, raise, mbind, M_bind, mret, M_ret.
    intros Hrun.
    repeat (case_match; simplify_eq/=);
      (by eexists _, []; rewrite extend_nil; auto) || (by eexists _, [_]; eauto).
  - right. apply extract_content_Raised in Hrun as (Hexc & Hne & ->). by exists e.
Qed.

(** Log events do not count as requests. *)
Lemma posts_extend_logs (w : world) (logs : list event) :
  Forall (λ ev, is_post ev = false) logs → posts (extend w logs) = posts w.
Proof.
  intros Hlogs. rewrite posts_extend.
  assert (filter is_post logs = []) as ->; [| simpl; lia].
  induction Hlogs as [| ev logs Hev _ IH]; [done |].
  rewrite filter_cons, IH. by rewrite Hev.
Qed.

Section More.

Variable backend : nat -> Request -> post_result.
Variable status_message : Response -> string.

(** Past the guard, every run adds the request and then at most one log
    event, and returns. *)
Lemma retrieve_configured_shape (query : string) (w : world) :
  configured (ragflow_service w) →
  ∃ (v : value) (logs : list event),
    retrieve backend status_message query w =
      (Returned v,
       extend w (Posted (request_of (ragflow_service w) query) :: logs))
    ∧ (length logs ≤ 1)%nat
    ∧ Forall (λ ev, is_post ev = false) logs.
Proof.
  intros Hconf.
  destruct (backend (posts w) (request_of (ragflow_service w) query))
    as [f message | r] eqn:Hback.
  { eexists _, [_]. split; [by eapply retrieve_Fails |]. by repeat constructor. }
  destruct (is_success r) eqn:Hstatus; cycle 1.
  { eexists _, [_]. split; [by eapply retrieve_not_success |]. by repeat constructor. }
  destruct (body r) as [data | message] eqn:Hbody; cycle 1.
  { eexists _, [_]. split; [by eapply retrieve_Malformed |]. by repeat constructor. }
  erewrite retrieve_Json by done.
  destruct (extract_content_cases query data
              (emit (Posted (request_of (ragflow_service w) query)) w))
    as [(v & logs & Hrun & Hlogs) | (e & Hrun & Hexc & Hne)].
  - exists v, logs. split.
    + erewrite try_except_Returned by done. by rewrite extend_emit.
    + by destruct Hlogs as [-> | ->]; repeat constructor.
  - eexists _, [_]. split.
    + erewrite try_except_Exception by done. by rewrite emit_emit.
    + by repeat constructor.
Qed.

(** X3. A configured [retrieve] sends exactly one request whatever the
    backend does (no retry, no second attempt after an error), then logs
    at most one event, and returns. *)
Theorem retrieve_sends_one_request (query : string) (w : world) :
  configured (ragflow_service w) →
  ∃ (v : value) (logs : list event),
    retrieve backend status_message query w =
      (Returned v,
       extend w (Posted (request_of (ragflow_service w) query) :: logs))
    ∧ (length logs ≤ 1)%nat
    ∧ Forall (λ ev, is_post ev = false) logs
    ∧ posts (retrieve backend status_message query w).2 = S (posts w).
Proof.
  intros Hconf.
  destruct (retrieve_configured_shape query w Hconf) as (v & logs & Hrun & Hlen & Hlogs).
  exists v, logs. split; [done |]. split; [done |]. split; [done |].
  rewrite Hrun; simpl. rewrite posts_extend; simpl.
  assert (filter is_post logs = []) as ->; [| simpl; lia].
  clear Hrun Hlen. induction Hlogs as [| ev logs Hev _ IH]; [done |].
  rewrite filter_cons, IH. by rewrite Hev.
Qed.

(** X13. When the guard fires, the one warning logged tells which of the
    two settings is present: [api_key_set] and [chat_id_set] are the truth
    values of the two attributes. *)
Theorem retrieve_warning_fields (query : string) (w : world) :
  api_key (ragflow_service w) = "" ∨ chat_id (ragflow_service w) = "" →
  (retrieve backend status_message query w).2 =
    emit (Logged WARNING "ragflow_not_configured"
            [("api_key_set", PyBool (bool_decide (api_key (ragflow_service w) ≠ "")));
             ("chat_id_set", PyBool (bool_decide (chat_id (ragflow_service w) ≠ "")))])
      w.
Proof.
  intros Hempty. rewrite retrieve_guard by done. cbn [snd].
  by rewrite !truthy_PyStr.
Qed.

(** X4. The request a configured service built by [__init__] sends: the
    stripped base URL followed by the chat-completions path of the chat,
    the bearer token and JSON content type, a 30 second timeout, and a
    body with model "ragflow", streaming off and the query as the content
    of the single user message. *)
Theorem retrieve_request_of_init (settings : Settings) (query : string) (w : world) :
  ragflow_service w = init settings →
  RAGFLOW_API_KEY settings ≠ "" →
  RAGFLOW_CHAT_ID settings ≠ "" →
  ∃ (req : Request) (v : value) (logs : list event)
    (payload message : gmap string value),
    retrieve backend status_message query w = (Returned v, extend w (Posted req :: logs))
    ∧ req_url req = rstrip (RAGFLOW_BASE_URL settings) "/" ++ "/chats_openai/"
                    ++ RAGFLOW_CHAT_ID settings ++ "/chat/completions"
    ∧ req_headers req !! "Authorization" = Some ("Bearer " ++ RAGFLOW_API_KEY settings)
    ∧ req_headers req !! "Content-Type" = Some "application/json"
    ∧ req_timeout req = 30%Z
    ∧ req_json req = PyDict payload
    ∧ payload !! "model" = Some (PyStr "ragflow")
    ∧ payload !! "stream" = Some (PyBool false)
    ∧ payload !! "messages" = Some (PyList [PyDict message])
    ∧ message !! "role" = Some (PyStr "user")
    ∧ message !! "content" = Some (PyStr query).
Proof.
  intros Hinit Hkey Hchat.
  destruct (retrieve_configured_shape query w) as (v & logs & Hrun & _).
  { rewrite Hinit. by split. }
  eexists _, v, logs, _, _. split; [exact Hrun |].
  rewrite Hinit. unfold request_of, completions_url, init, payload; simpl.
  by repeat split.
Qed.

(** The outcome when the extraction raises. *)
Lemma retrieve_extract_Raised (query : string) (w w' : world) (r : Response)
    (data : value) (e : exc) :
  configured (ragflow_service w) →
  backend (posts w) (request_of (ragflow_service w) query) = Responds r →
  (200 ≤ status_code r ≤ 299)%Z →
  body r = Json data →
  extract_content query data
    (emit (Posted (request_of (ragflow_service w) query)) w) = (Raised e, w') →
  (retrieve backend status_message query w).1 =
    Returned (PyStr (unexpected_error ++ exc_str e)).
Proof.
  intros Hconf Hback Hstatus Hbody Hrun.
  erewrite retrieve_Json; [| done | done | by apply is_success_true | done].
  destruct (extract_content_Raised _ _ _ _ _ Hrun) as (Hexc & Hne & _).
  by erewrite try_except_Exception.
Qed.

(** X5. For a 2xx object body, any falsy value under ["choices"] counts
    as no choices: not only a missing key or the empty list but also
    [null], [false], [0], [""] and [{}] give the fixed "no response"
    string, and nothing is logged after the request. *)
Theorem retrieve_falsy_choices (query : string) (w : world) (r : Response)
    (d : gmap string value) :
  configured (ragflow_service w) →
  backend (posts w) (request_of (ragflow_service w) query) = Responds r →
  (200 ≤ status_code r ≤ 299)%Z →
  body r = Json (PyDict d) →
  truthy (default (PyList []) (d !! "choices")) = false →
  retrieve backend status_message query w =
    (Returned (PyStr "No response from RAGFlow."),
     emit (Posted (request_of (ragflow_service w) query)) w).
Proof.
  intros Hconf Hback Hstatus Hbody Hfalsy.
  erewrite retrieve_Json; [| done | done | by apply is_success_true | done].
  apply try_except_Returned.
  unfold extract_content, get, mbind, M_bind, mret, M_ret.
  by rewrite Hfalsy.
Qed.

(** X6. A 2xx body that decodes to something other than an object (a
    list, a string, a number, [null]) is not an empty answer: the lookup
    of ["choices"] raises [AttributeError], and the result is the
    "unexpected error" string naming the type. *)
Theorem retrieve_body_shape (query : string) (w : world) (r : Response)
    (data : value) :
  configured (ragflow_service w) →
  backend (posts w) (request_of (ragflow_service w) query) = Responds r →
  (200 ≤ status_code r ≤ 299)%Z →
  body r = Json data →
  (∀ d : gmap string value, data ≠ PyDict d) →
  (retrieve backend status_message query w).1 =
    Returned (PyStr ("An unexpected error occurred while querying RAGFlow: '"
                     ++ type_name data ++ "' object has no attribute 'get'")).
Proof.
  intros Hconf Hback Hstatus Hbody Hshape.
  erewrite retrieve_extract_Raised; cycle 1;
    [done | done | done | done | by apply extract_content_not_object |].
  done.
Qed.

(** X7. A first choice that is not an object ([null], a string, a list,
    a number) has no [get]: the result is the "unexpected error" string
    naming its type, not the empty string. *)
Theorem retrieve_first_choice_shape (query : string) (w : world) (r : Response)
    (d : gmap string value) (x : value) (rest : list value) :
  configured (ragflow_service w) →
  backend (posts w) (request_of (ragflow_service w) query) = Responds r →
  (200 ≤ status_code r ≤ 299)%Z →
  body r = Json (PyDict d) →
  d !! "choices" = Some (PyList (x :: rest)) →
  (∀ first : gmap string value, x ≠ PyDict first) →
  (retrieve backend status_message query w).1 =
    Returned (PyStr ("An unexpected error occurred while querying RAGFlow: '"
                     ++ type_name x ++ "' object has no attribute 'get'")).
Proof.
  intros Hconf Hback Hstatus Hbody Hchoices Hshape.
  erewrite retrieve_extract_Raised; cycle 1;
    [done | done | done | done | by eapply extract_content_first_not_object |].
  done.
Qed.

(** X8. A ["message"] that is present but is not an object is not treated
    as missing: with ["message": null] the second [get] raises, and the
    result is the "unexpected error" string, not the empty string. *)
Theorem retrieve_message_shape (query : string) (w : world) (r : Response)
    (d first : gmap string value) (rest : list value) (x : value) :
  configured (ragflow_service w) →
  backend (posts w) (request_of (ragflow_service w) query) = Responds r →
  (200 ≤ status_code r ≤ 299)%Z →
  body r = Json (PyDict d) →
  d !! "choices" = Some (PyList (PyDict first :: rest)) →
  first !! "message" = Some x →
  (∀ m : gmap string value, x ≠ PyDict m) →
  (retrieve backend status_message query w).1 =
    Returned (PyStr ("An unexpected error occurred while querying RAGFlow: '"
                     ++ type_name x ++ "' object has no attribute 'get'")).
Proof.
  intros Hconf Hback Hstatus Hbody Hchoices Hmessage Hshape.
  erewrite (retrieve_extract_Raised query w _ r (PyDict d)
              (mk_exc AttributeError
                 ("'" ++ type_name x ++ "' object has no attribute 'get'")));
    [done | done.. |].
  unfold extract_content, get, subscript0, raise, mbind, M_bind, mret, M_ret.
  rewrite Hchoices; simpl. rewrite Hmessage; simpl.
  destruct x; try done. by destruct (Hshape d0).
Qed.

(** X9. A truthy ["choices"] that is not a list is indexed all the same:
    an object gives [KeyError(0)], whose text is "0"; a string gives its
    first character, which has no [get]; a number or [true] is not
    subscriptable.  Each ends as the "unexpected error" string. *)
Theorem retrieve_choices_shape (query : string) (w : world) (r : Response)
    (d : gmap string value) (c : value) :
  let unexpected (details : string) : result value :=
    Returned (PyStr ("An unexpected error occurred while querying RAGFlow: "
                     ++ details)) in
  configured (ragflow_service w) →
  backend (posts w) (request_of (ragflow_service w) query) = Responds r →
  (200 ≤ status_code r ≤ 299)%Z →
  body r = Json (PyDict d) →
  d !! "choices" = Some c →
  truthy c = true →
  (∀ l : list value, c ≠ PyList l) →
  (retrieve backend status_message query w).1 =
    match c with
    | PyDict _ => unexpected "0"
    | PyStr _ => unexpected "'str' object has no attribute 'get'"
    | _ => unexpected ("'" ++ type_name c ++ "' object is not subscriptable")
    end.
Proof.
  intros unexpected Hconf Hback Hstatus Hbody Hchoices Htruthy Hshape.
  assert (∀ e : exc,
            extract_content query (PyDict d)
              (emit (Posted (request_of (ragflow_service w) query)) w)
            = (Raised e, emit (Posted (request_of (ragflow_service w) query)) w) →
            (retrieve backend status_message query w).1 = unexpected (exc_str e))
    as Hraised.
  { intros e Hrun. by erewrite retrieve_extract_Raised. }
  assert (∀ v : value, default (PyList []) (Some v) = v) as Hdefault by done.
  destruct c as [| b | n | f | t | l | m]; try done.
  - apply (Hraised (mk_exc TypeError _)).
    unfold extract_content, get, subscript0, raise, mbind, M_bind, mret, M_ret.
    by rewrite Hchoices, Hdefault, Htruthy.
  - apply (Hraised (mk_exc TypeError _)).
    unfold extract_content, get, subscript0, raise, mbind, M_bind, mret, M_ret.
    by rewrite Hchoices, Hdefault, Htruthy.
  - apply (Hraised (mk_exc TypeError _)).
    unfold extract_content, get, subscript0, raise, mbind, M_bind, mret, M_ret.
    by rewrite Hchoices, Hdefault, Htruthy.
  - destruct t as [| a t]; [done |].
    apply (Hraised (mk_exc AttributeError _)).
    unfold extract_content, get, subscript0, raise, mbind, M_bind, mret, M_ret.
    by rewrite Hchoices.
  - by destruct (Hshape l).
  - apply (Hraised (mk_exc KeyError _)).
    unfold extract_content, get, subscript0, raise, mbind, M_bind, mret, M_ret.
    by rewrite Hchoices, Hdefault, Htruthy.
Qed.

(** X12. The tool never raises into the agent: [query_knowledge_base]
    returns a value for every query, world and backend, sends at most one
    request, and leaves the service object as it was. *)
Theorem query_knowledge_base_returns (query : string) (w : world) :
  ∃ (v : value) (w' : world),
    query_knowledge_base backend status_message query w = (Returned v, w')
    ∧ ragflow_service w' = ragflow_service w
    ∧ (posts w ≤ posts w' ≤ S (posts w))%nat.
Proof.
  unfold query_knowledge_base, log, mbind, M_bind, mret, M_ret.
  set (called := emit _ w).
  assert (posts called = posts w) as Hposts by apply posts_emit_Logged.
  destruct (configured_dec (ragflow_service w)) as [Hconf | Hempty].
  - destruct (retrieve_configured_shape query called Hconf)
      as (v & logs & Hrun & _ & Hlogs).
    rewrite Hrun. eexists _, _. split; [done |]. split; [done |].
    rewrite <- extend_emit, posts_extend_logs, posts_emit_Posted by done. lia.
  - rewrite (retrieve_guard backend status_message query called) by done.
    eexists _, _. split; [done |]. split; [done |].
    rewrite posts_emit_Logged. lia.
Qed.

End More.

(** ** What the answer depends on *)

(** X10. Only the first choice is read: two 2xx object bodies whose
    [choices] lists start with the same element give the same result and
    the same events, whatever the other choices and the other keys of the
    body are. *)
Theorem retrieve_first_choice_only (backend1 backend2 : nat → Request → post_result)
    (status_message : Response → string) (query : string) (w : world)
    (r1 r2 : Response) (d1 d2 : gmap string value) (x : value)
    (rest1 rest2 : list value) :
  configured (ragflow_service w) →
  backend1 (posts w) (request_of (ragflow_service w) query) = Responds r1 →
  backend2 (posts w) (request_of (ragflow_service w) query) = Responds r2 →
  (200 ≤ status_code r1 ≤ 299)%Z →
  (200 ≤ status_code r2 ≤ 299)%Z →
  body r1 = Json (PyDict d1) →
  body r2 = Json (PyDict d2) →
  d1 !! "choices" = Some (PyList (x :: rest1)) →
  d2 !! "choices" = Some (PyList (x :: rest2)) →
  retrieve backend1 status_message query w = retrieve backend2 status_message query w.
Proof.
  intros Hconf Hback1 Hback2 Hstatus1 Hstatus2 Hbody1 Hbody2 Hchoices1 Hchoices2.
  erewrite (retrieve_Json backend1); [| done | done | by apply is_success_true | done].
  erewrite (retrieve_Json backend2); [| done | done | by apply is_success_true | done].
  unfold try_except. f_equal.
  assert (∀ w', extract_content query (PyDict d1) w'
                = extract_content query (PyDict d2) w') as ->; [| done].
  intros w'. unfold extract_content, get, mbind, M_bind, mret, M_ret.
  by rewrite Hchoices1, Hchoices2.
Qed.


(** ** What the [try] statement lets through *)

(** X11. The two [except] clauses catch instances of [Exception] only: an
    exception of another class, such as a cancellation, leaves the [try]
    statement as it entered, with nothing logged. *)
Theorem try_except_escapes (body : M value) (w w' : world) (e : exc) :
  body w = (Raised e, w') →
  isinstance e Exception = false →
  try_except body retrieve_except w = (Raised e, w').
Proof.
  intros Hbody Hexc. unfold try_except. rewrite Hbody.
  unfold retrieve_except, select. rewrite Hexc.
  destruct (isinstance e HTTPStatusError) eqn:Hsub; [| done].
  apply issubclass_HTTPStatusError in Hsub.
  unfold isinstance in Hexc. rewrite Hsub in Hexc. by vm_compute in Hexc.
Qed.

(** * Worked examples *)

Lemma example_configured : configured (ragflow_service example_world).
Proof. split; intros H; discriminate H. Qed.

Example example_url :
  completions_url (ragflow_service example_world)
  = "http://localhost:9380/api/v1/chats_openai/chat-1/chat/completions".
Proof. reflexivity. Qed.

Example example_headers :
  headers (ragflow_service example_world) !! "Authorization"
  = Some "Bearer ragflow-key".
Proof. reflexivity. Qed.

Example rstrip_slashes : rstrip "http://host/api//" "/" = "http://host/api".
Proof. reflexivity. Qed.

(** C1 at the empty query: no API key, and a backend that would answer. *)
Lemma retrieve_not_configured_witness :
  ∃ (fields : list (string * value)) (w' : world),
    retrieve (mock (responds 200 "OK" (Json (one_choice (PyStr "Paris")))))
      example_status_message "" unconfigured_world =
      (Returned (PyStr "RAGFlow is not configured. Please provide API key and Chat ID."),
       w')
    ∧ events w' = [Logged WARNING "ragflow_not_configured" fields]
    ∧ posts w' = 0%nat.
Proof.
  apply (retrieve_not_configured _ example_status_message "" unconfigured_world).
  left. reflexivity.
Defined.

(** C3 at the body [{"choices":[{"message":{"content":"Paris"}}]}]. *)
Lemma retrieve_returns_content_witness :
  (retrieve (mock (responds 200 "OK" (Json (one_choice (PyStr "Paris")))))
     example_status_message capital_query example_world).1
  = Returned (PyStr "Paris").
Proof.
  eapply (retrieve_returns_content _ example_status_message capital_query
            example_world _ _ _ _ [] "Paris").
  - exact example_configured.
  - reflexivity.
  - simpl. lia.
  - reflexivity.
  - reflexivity.
  - reflexivity.
  - reflexivity.
Defined.

(** C4 at the body [{"choices":[]}]. *)
Lemma retrieve_no_choices_witness :
  (retrieve (mock (responds 200 "OK" (Json (PyDict {[ "choices" := PyList [] ]}))))
     example_status_message capital_query example_world).1
  = Returned (PyStr "No response from RAGFlow.").
Proof.
  eapply (retrieve_no_choices _ example_status_message capital_query example_world).
  - exact example_configured.
  - reflexivity.
  - simpl. lia.
  - reflexivity.
  - right. reflexivity.
Defined.

(** C5 at a 401 response. *)
Lemma retrieve_status_error_witness :
  retrieve (mock (responds 401 "Unauthorized" (Malformed "Expecting value")))
    example_status_message capital_query example_world
  = (Returned (PyStr "Error communicating with RAGFlow: HTTP error 'Unauthorized'"),
     extend example_world
       [Posted (request_of (ragflow_service example_world) capital_query);
        Logged ERROR "ragflow_api_error"
          [("status_code", PyInt 401);
           ("error", PyStr "HTTP error 'Unauthorized'")]]).
Proof.
  apply (retrieve_status_error
           (mock (responds 401 "Unauthorized" (Malformed "Expecting value")))
           example_status_message capital_query example_world
           {| status_code := 401; reason_phrase := "Unauthorized";
              body := Malformed "Expecting value" |}).
  - exact example_configured.
  - reflexivity.
  - simpl. lia.
Defined.

(** C6 at a read timeout. *)
Lemma retrieve_unexpected_error_witness :
  (retrieve (mock (Fails ReadTimedOut "timed out"))
     example_status_message capital_query example_world).1
  = Returned (PyStr "An unexpected error occurred while querying RAGFlow: timed out").
Proof.
  apply (proj1 (retrieve_unexpected_error (mock (Fails ReadTimedOut "timed out"))
                  example_status_message capital_query example_world
                  example_configured)
           ReadTimedOut "timed out").
  reflexivity.
Defined.

(** C7 at the body [{"choices":[{}]}]. *)
Lemma retrieve_missing_fields_witness :
  (retrieve (mock (responds 200 "OK"
                     (Json (PyDict {[ "choices" := PyList [PyDict ∅] ]}))))
     example_status_message capital_query example_world).1
  = Returned (PyStr "").
Proof.
  eapply (retrieve_missing_fields _ example_status_message capital_query
            example_world _ _ ∅ []).
  - exact example_configured.
  - reflexivity.
  - simpl. lia.
  - reflexivity.
  - reflexivity.
  - left. reflexivity.
Defined.

(** C9 at a backend that always answers "Paris". *)
Lemma retrieve_twice_witness :
  ∃ (v : value) (w1 w2 : world),
    retrieve (mock (responds 200 "OK" (Json (one_choice (PyStr "Paris")))))
      example_status_message capital_query example_world = (Returned v, w1)
    ∧ retrieve (mock (responds 200 "OK" (Json (one_choice (PyStr "Paris")))))
        example_status_message capital_query w1 = (Returned v, w2)
    ∧ ragflow_service w1 = ragflow_service example_world
    ∧ ragflow_service w2 = ragflow_service example_world.
Proof.
  apply (retrieve_twice (mock (responds 200 "OK" (Json (one_choice (PyStr "Paris")))))
           example_status_message capital_query example_world).
  intros i j req. reflexivity.
Defined.

(** C10 at the body [{"choices":[{"message":{"content":null}}]}]: the
    result is [None], which is not a string. *)
Lemma retrieve_content_unchecked_witness :
  (retrieve (mock (responds 200 "OK" (Json (one_choice PyNone))))
     example_status_message capital_query example_world).1
  = Returned PyNone
  ∧ is_str PyNone = false.
Proof.
  split; [| reflexivity].
  eapply (retrieve_content_unchecked _ example_status_message capital_query
            example_world _ _ _ _ [] PyNone).
  - exact example_configured.
  - reflexivity.
  - simpl. lia.
  - reflexivity.
  - reflexivity.
  - reflexivity.
  - reflexivity.
Defined.

(** ** Examples for the further properties *)

(** X2 at two trailing slashes. *)
Lemma init_trailing_slashes_witness :
  init {| RAGFLOW_BASE_URL := "http://localhost:9380/api/v1" ++ "//";
          RAGFLOW_API_KEY := "ragflow-key";
          RAGFLOW_CHAT_ID := "chat-1" |}
  = init {| RAGFLOW_BASE_URL := "http://localhost:9380/api/v1";
            RAGFLOW_API_KEY := "ragflow-key";
            RAGFLOW_CHAT_ID := "chat-1" |}.
Proof.
  apply (init_trailing_slashes
           {| RAGFLOW_BASE_URL := "http://localhost:9380/api/v1";
              RAGFLOW_API_KEY := "ragflow-key";
              RAGFLOW_CHAT_ID := "chat-1" |} "//").
  repeat constructor.
Defined.

(** X3 at a refused connection. *)
Lemma retrieve_sends_one_request_witness :
  ∃ (v : value) (logs : list event),
    retrieve (mock (Fails ConnectFailed "All connection attempts failed"))
      example_status_message capital_query example_world =
      (Returned v,
       extend example_world
         (Posted (request_of (ragflow_service example_world) capital_query) :: logs))
    ∧ (length logs ≤ 1)%nat
    ∧ Forall (λ ev, is_post ev = false) logs
    ∧ posts (retrieve (mock (Fails ConnectFailed "All connection attempts failed"))
               example_status_message capital_query example_world).2 = 1%nat.
Proof.
  apply (retrieve_sends_one_request
           (mock (Fails ConnectFailed "All connection attempts failed"))
           example_status_message capital_query example_world).
  exact example_configured.
Defined.

(** X4 at the example settings. *)
Lemma retrieve_request_of_init_witness :
  ∃ (req : Request) (v : value) (logs : list event)
    (payload message : gmap string value),
    retrieve (mock (responds 200 "OK" (Json (one_choice (PyStr "Paris")))))
      example_status_message capital_query example_world
    = (Returned v, extend example_world (Posted req :: logs))
    ∧ req_url req = "http://localhost:9380/api/v1/chats_openai/chat-1/chat/completions"
    ∧ req_headers req !! "Authorization" = Some "Bearer ragflow-key"
    ∧ req_headers req !! "Content-Type" = Some "application/json"
    ∧ req_timeout req = 30%Z
    ∧ req_json req = PyDict payload
    ∧ payload !! "model" = Some (PyStr "ragflow")
    ∧ payload !! "stream" = Some (PyBool false)
    ∧ payload !! "messages" = Some (PyList [PyDict message])
    ∧ message !! "role" = Some (PyStr "user")
    ∧ message !! "content" = Some (PyStr "What is the capital of France?").
Proof.
  apply (retrieve_request_of_init
           (mock (responds 200 "OK" (Json (one_choice (PyStr "Paris")))))
           example_status_message example_settings capital_query example_world).
  - reflexivity.
  - intros H. discriminate H.
  - intros H. discriminate H.
Defined.

(** X5 at the body [{"choices": null}]. *)
Lemma retrieve_falsy_choices_witness :
  retrieve (mock (responds 200 "OK" (Json (PyDict {[ "choices" := PyNone ]}))))
    example_status_message capital_query example_world
  = (Returned (PyStr "No response from RAGFlow."),
     emit (Posted (request_of (ragflow_service example_world) capital_query))
       example_world).
Proof.
  eapply (retrieve_falsy_choices _ example_status_message capital_query
            example_world).
  - exact example_configured.
  - reflexivity.
  - simpl. lia.
  - reflexivity.
  - reflexivity.
Defined.

(** X6 at the body [[]]. *)
Lemma retrieve_body_shape_witness :
  (retrieve (mock (responds 200 "OK" (Json (PyList []))))
     example_status_message capital_query example_world).1
  = Returned (PyStr "An unexpected error occurred while querying RAGFlow: 'list' object has no attribute 'get'").
Proof.
  eapply (retrieve_body_shape _ example_status_message capital_query
            example_world _ (PyList [])).
  - exact example_configured.
  - reflexivity.
  - simpl. lia.
  - reflexivity.
  - intros d H. discriminate H.
Defined.

(** X7 at the body [{"choices": [null]}]. *)
Lemma retrieve_first_choice_shape_witness :
  (retrieve (mock (responds 200 "OK"
                     (Json (PyDict {[ "choices" := PyList [PyNone] ]}))))
     example_status_message capital_query example_world).1
  = Returned (PyStr "An unexpected error occurred while querying RAGFlow: 'NoneType' object has no attribute 'get'").
Proof.
  eapply (retrieve_first_choice_shape _ example_status_message capital_query
            example_world _ _ PyNone []).
  - exact example_configured.
  - reflexivity.
  - simpl. lia.
  - reflexivity.
  - reflexivity.
  - intros first H. discriminate H.
Defined.

(** X8 at the body [{"choices": [{"message": null}]}]. *)
Lemma retrieve_message_shape_witness :
  (retrieve (mock (responds 200 "OK"
                     (Json (PyDict {[ "choices" :=
                                        PyList [PyDict {[ "message" := PyNone ]}] ]}))))
     example_status_message capital_query example_world).1
  = Returned (PyStr "An unexpected error occurred while querying RAGFlow: 'NoneType' object has no attribute 'get'").
Proof.
  eapply (retrieve_message_shape _ example_status_message capital_query
            example_world _ _ _ [] PyNone).
  - exact example_configured.
  - reflexivity.
  - simpl. lia.
  - reflexivity.
  - reflexivity.
  - reflexivity.
  - intros m H. discriminate H.
Defined.

(** X9 at the body [{"choices": {"answer": "Paris"}}]. *)
Lemma retrieve_choices_shape_witness :
  (retrieve (mock (responds 200 "OK"
                     (Json (PyDict {[ "choices" :=
                                        PyDict {[ "answer" := PyStr "Paris" ]} ]}))))
     example_status_message capital_query example_world).1
  = Returned (PyStr "An unexpected error occurred while querying RAGFlow: 0").
Proof.
  eapply (retrieve_choices_shape _ example_status_message capital_query
            example_world _ _ (PyDict {[ "answer" := PyStr "Paris" ]})).
  - exact example_configured.
  - reflexivity.
  - simpl. lia.
  - reflexivity.
  - reflexivity.
  - reflexivity.
  - intros l H. discriminate H.
Defined.

(** X10 at a body with a second choice and a further key. *)
Lemma retrieve_first_choice_only_witness :
  retrieve (mock (responds 200 "OK" (Json (one_choice (PyStr "Paris")))))
    example_status_message capital_query example_world
  = retrieve
      (mock (responds 201 "Created"
               (Json (PyDict {[ "choices" :=
                                  PyList [PyDict {[ "message" :=
                                                      PyDict {[ "content" := PyStr "Paris" ]} ]};
                                          PyStr "Lyon"];
                                "reference" := PyList [PyInt 1] ]}))))
      example_status_message capital_query example_world.
Proof.
  eapply (retrieve_first_choice_only _ _ example_status_message capital_query
            example_world _ _ _ _
            (PyDict {[ "message" := PyDict {[ "content" := PyStr "Paris" ]} ]})
            [] [PyStr "Lyon"]).
  - exact example_configured.
  - reflexivity.
  - reflexivity.
  - simpl. lia.
  - simpl. lia.
  - reflexivity.
  - reflexivity.
  - reflexivity.
  - reflexivity.
Defined.

(** X11 at a cancellation. *)
Lemma try_except_escapes_witness :
  try_except (raise (mk_exc CancelledError "")) retrieve_except example_world
  = (Raised (mk_exc CancelledError ""), example_world).
Proof.
  apply (try_except_escapes (raise (mk_exc CancelledError "")) example_world
           example_world (mk_exc CancelledError "")).
  - reflexivity.
  - reflexivity.
Defined.

(** X13 at a missing API key. *)
Lemma retrieve_warning_fields_witness :
  (retrieve (mock (Fails ConnectFailed "")) example_status_message capital_query
     unconfigured_world).2
  = emit (Logged WARNING "ragflow_not_configured"
            [("api_key_set", PyBool false); ("chat_id_set", PyBool true)])
      unconfigured_world.
Proof.
  apply (retrieve_warning_fields (mock (Fails ConnectFailed ""))
           example_status_message capital_query unconfigured_world).
  left. reflexivity.
Defined.

